(** * Context-menu primitives: session state machine and render gating

    A shallow embedding of [src/lib/rn-primitives/context-menu.tsx].

    The file is a family of React components sharing one piece of state
    through [ContextMenuContext].  Two things are embedded:

    - the event handlers ([close], [onLongPress], [onAccessibilityAction],
      [onPress], [onLayout], the back-press listener and the unmount
      clean-up).  A handler is the list of calls it makes, in program order:
      React state setters and callback props do not change what the running
      handler sees, they are requests that React applies once the handler
      has returned.  [Root.commit] applies them.
    - the render functions, reduced to the decision they take: render
      nothing ([None]) or an element.

    JavaScript numbers are only stored and compared by this file; they are
    modelled as rationals. *)

From Stdlib Require Import List String Bool QArith.
Import ListNotations.

Local Open Scope string_scope.
Local Open Scope bool_scope.

(* ================================================================= *)
(** ** Geometry and host events *)

(** [LayoutPosition] of [./hooks/useRelativePosition], as the object
    literals of [Trigger] build it. *)
Module LayoutPosition.
Record t : Type := mk
  { width : Q
  ; pageX : Q
  ; pageY : Q
  ; height : Q }.
End LayoutPosition.

(** React Native's [LayoutRectangle]. *)
Module LayoutRectangle.
Record t : Type := mk
  { x : Q
  ; y : Q
  ; width : Q
  ; height : Q }.
End LayoutRectangle.

(** The part of [GestureResponderEvent] the handlers read:
    [ev.nativeEvent.pageX] and [ev.nativeEvent.pageY]. *)
Record GestureResponderEvent : Type :=
  { nativeEvent_pageX : Q
  ; nativeEvent_pageY : Q }.

(** [event.nativeEvent.actionName]. *)
Record AccessibilityActionEvent : Type :=
  { nativeEvent_actionName : string }.

(** [event.nativeEvent.layout]. *)
Record LayoutChangeEvent : Type :=
  { nativeEvent_layout : LayoutRectangle.t }.

(* ================================================================= *)
(** ** JavaScript values and React contexts *)

Module Js.

(** The values a context can hold. *)
#[warnings="-register-all"] Inductive value : Type :=
| Undefined
| Null
| Boolean (b : bool)
| Number (q : Q)
| Str (s : string)
| Function_ (name : string)
| Object (props : list (string * value)).

(** ToBoolean: what [!v] and [if (v)] test. *)
Definition truthy (v : value) : bool :=
  match v with
  | Undefined | Null => false
  | Boolean b => b
  | Number q => negb (Qeq_bool q 0)
  | Str s => match s with EmptyString => false | _ => true end
  | Function_ _ | Object _ => true
  end.

Fixpoint lookup (k : string) (props : list (string * value)) : value :=
  match props with
  | [] => Undefined
  | (k', v) :: rest => if String.eqb k k' then v else lookup k rest
  end.

(** [v.k], also what the destructuring [const { k } = v] reads; a missing
    property reads as [undefined].  It is only applied to values that
    passed a truthiness test or are object literals.  Only the own
    properties of an object are modelled: the names an object inherits
    from its prototype ([toString], [constructor], ...) are outside the
    model, and no component reads them. *)
Definition get (k : string) (v : value) : value :=
  match v with
  | Object props => lookup k props
  | _ => Undefined
  end.

(** [v == null]. *)
Definition loose_eq_null (v : value) : bool :=
  match v with
  | Undefined | Null => true
  | _ => false
  end.

(** [a === b] on primitives.  Objects and functions compare by identity,
    which a value here does not carry: the comparisons of this file have
    a string or [undefined] on each side. *)
Definition strict_eq (a b : value) : bool :=
  match a, b with
  | Undefined, Undefined => true
  | Null, Null => true
  | Boolean x, Boolean y => Bool.eqb x y
  | Number x, Number y => Qeq_bool x y
  | Str x, Str y => String.eqb x y
  | _, _ => false
  end.

(** [!forceMount] for an optional boolean prop without a default. *)
Definition of_optional_bool (b : option bool) : value :=
  match b with
  | Some b => Boolean b
  | None => Undefined
  end.

End Js.

Module React.

(** A render either returns or throws an [Error] with a message. *)
Inductive result (A : Type) : Type :=
| Return (a : A)
| Throw (message : string).
Arguments Return {A} a.
Arguments Throw {A} message.

Definition bind {A B : Type} (r : result A) (k : A -> result B)
  : result B :=
  match r with
  | Return a => k a
  | Throw m => Throw m
  end.

(** [React.createContext(defaultValue)]. *)
Record Context : Type := createContext
  { defaultValue : Js.value }.

(** [React.useContext(c)]: the value of the nearest enclosing
    [c.Provider], or the default of the context when the component has
    no such ancestor ([provider = None]). *)
Definition useContext (c : Context) (provider : option Js.value)
  : Js.value :=
  match provider with
  | Some v => v
  | None => defaultValue c
  end.

End React.

Notation "x <- r ;; k" := (React.bind r (fun x => k))
  (at level 61, r at next level, right associativity).

(* ================================================================= *)
(** ** Calls made by handlers *)

(** What a handler can call: the two state setters of [Root], the
    [onOpenChange] prop of [Root] (or of [Sub]), and the callback props a
    consumer may pass to a component. *)
Inductive Call : Type :=
| setPressPosition (v : option LayoutPosition.t)
| setContentLayout (v : option LayoutRectangle.t)
| onOpenChange (v : bool)
| onLongPressProp (ev : GestureResponderEvent)
| onAccessibilityActionProp (ev : AccessibilityActionEvent)
| onPressProp (ev : GestureResponderEvent)
| onSelect (ev : GestureResponderEvent)
| onCheckedChange (checked : bool)
| onValueChange (value : string)
| onLayoutProp (ev : LayoutChangeEvent)
| backHandler_remove.

(** [f?.(ev)]: the call is made only when the prop was passed. *)
Definition optional (given : bool) (c : Call) : list Call :=
  if given then [c] else [].

Definition is_onSelect (c : Call) : bool :=
  match c with onSelect _ => true | _ => false end.

Definition is_onOpenChange (c : Call) : bool :=
  match c with onOpenChange _ => true | _ => false end.

Definition is_setPressPosition (c : Call) : bool :=
  match c with setPressPosition _ => true | _ => false end.

Definition is_setContentLayout (c : Call) : bool :=
  match c with setContentLayout _ => true | _ => false end.

(** A call that belongs to [close()]. *)
Definition is_close_call (c : Call) : bool :=
  is_setPressPosition c || is_setContentLayout c || is_onOpenChange c.

(** No call satisfying [p] is made after a call satisfying [q]. *)
Fixpoint ordered (p q : Call -> bool) (trace : list Call) : bool :=
  match trace with
  | [] => true
  | c :: rest => (negb (q c) || negb (existsb p rest)) && ordered p q rest
  end.

(** [precedes p q trace]: calls of both kinds are made, and every call
    satisfying [p] is made before every call satisfying [q]. *)
Definition precedes (p q : Call -> bool) (trace : list Call) : bool :=
  existsb p trace && existsb q trace && ordered p q trace.

(* ================================================================= *)
(** ** Root: the session *)

Module Root.

(** The value [Root] passes to [ContextMenuContext.Provider], without its
    function fields: [open] is the prop of [Root], [pressPosition] and
    [contentLayout] are its two [useState] cells, [nativeID] comes from
    [useId]. *)
Record Session : Type := mkSession
  { open : bool
  ; pressPosition : option LayoutPosition.t
  ; contentLayout : option LayoutRectangle.t
  ; nativeID : string }.

(** First render of [Root]: both [useState] cells start at [null]; [open]
    is whatever the owner passes. *)
Definition mount (openProp : bool) (id : string) : Session :=
  {| open := openProp
   ; pressPosition := None
   ; contentLayout := None
   ; nativeID := id |}.

Definition pressPosition_value (p : option LayoutPosition.t) : Js.value :=
  match p with
  | None => Js.Null
  | Some p =>
      Js.Object [ ("width", Js.Number (LayoutPosition.width p))
                ; ("pageX", Js.Number (LayoutPosition.pageX p))
                ; ("pageY", Js.Number (LayoutPosition.pageY p))
                ; ("height", Js.Number (LayoutPosition.height p)) ]
  end.

Definition contentLayout_value (r : option LayoutRectangle.t) : Js.value :=
  match r with
  | None => Js.Null
  | Some r =>
      Js.Object [ ("x", Js.Number (LayoutRectangle.x r))
                ; ("y", Js.Number (LayoutRectangle.y r))
                ; ("width", Js.Number (LayoutRectangle.width r))
                ; ("height", Js.Number (LayoutRectangle.height r)) ]
  end.

(** The object literal of lines 60-69, the [value] of the provider. *)
Definition contextValue (s : Session) : Js.value :=
  Js.Object [ ("open", Js.Boolean (open s))
            ; ("onOpenChange", Js.Function_ "onOpenChange")
            ; ("nativeID", Js.Str (nativeID s))
            ; ("pressPosition", pressPosition_value (pressPosition s))
            ; ("setPressPosition", Js.Function_ "setPressPosition")
            ; ("contentLayout", contentLayout_value (contentLayout s))
            ; ("setContentLayout", Js.Function_ "setContentLayout")
            ; ("close", Js.Function_ "close") ].

(** [function close()], lines 51-55. *)
Definition close : list Call :=
  [ setPressPosition None
  ; setContentLayout None
  ; onOpenChange false ].

(** Effect of one call on the session.  [open] is a controlled prop: the
    owner of [Root] is taken to store the value [onOpenChange] hands it
    (the [onOpenChange={setOpen}] wiring).  Callback props of the
    consumer cannot reach the two state cells, which live in a context
    the file does not export; they are taken not to drive [open]
    either. *)
Definition apply (s : Session) (c : Call) : Session :=
  match c with
  | setPressPosition v =>
      {| open := open s; pressPosition := v
       ; contentLayout := contentLayout s; nativeID := nativeID s |}
  | setContentLayout v =>
      {| open := open s; pressPosition := pressPosition s
       ; contentLayout := v; nativeID := nativeID s |}
  | onOpenChange v =>
      {| open := v; pressPosition := pressPosition s
       ; contentLayout := contentLayout s; nativeID := nativeID s |}
  | _ => s
  end.

(** State of the next render, once the requests of a handler have been
    applied in the order they were made. *)
Definition commit (s : Session) (calls : list Call) : Session :=
  fold_left apply calls s.

End Root.

(* ================================================================= *)
(** ** Contexts and their hooks *)

(** Line 39: [React.createContext({} as RootContext)]. *)
Definition ContextMenuContext : React.Context :=
  React.createContext (Js.Object []).

(** [function useContextMenuContext()], lines 78-86. *)
Definition useContextMenuContext (provider : option Js.value)
  : React.result Js.value :=
  let context := React.useContext ContextMenuContext provider in
  if negb (Js.truthy context) then
    React.Throw
      "ContextMenu compound components cannot be rendered outside the ContextMenu component"
  else React.Return context.

(** Line 405: [React.createContext({} as FormItemContext)]. *)
Definition FormItemContext : React.Context :=
  React.createContext (Js.Object []).

(** [function useFormItemContext()], lines 462-470. *)
Definition useFormItemContext (provider : option Js.value)
  : React.result Js.value :=
  let context := React.useContext FormItemContext provider in
  if negb (Js.truthy context) then
    React.Throw
      "CheckboxItem or RadioItem compound components cannot be rendered outside of a CheckboxItem or RadioItem component"
  else React.Return context.

(** Line 493: [React.createContext({} as { itemValue: string })]. *)
Definition RadioItemContext : React.Context :=
  React.createContext (Js.Object []).

(** [function useItemIndicatorContext()], lines 552-558. *)
Definition useItemIndicatorContext (provider : option Js.value)
  : Js.value :=
  let context := React.useContext RadioItemContext provider in
  if negb (Js.truthy context) then
    Js.Object [ ("itemValue", Js.Null) ]
  else context.

(** Lines 601-607: [React.createContext({} as {...})]. *)
Definition SubContext : React.Context :=
  React.createContext (Js.Object []).

(** [function useSubContext()], lines 633-641. *)
Definition useSubContext (provider : option Js.value)
  : React.result Js.value :=
  let context := React.useContext SubContext provider in
  if negb (Js.truthy context) then
    React.Throw
      "Sub compound components cannot be rendered outside of a Sub component"
  else React.Return context.

(* ================================================================= *)
(** ** Trigger *)

Module Trigger.

(** [function onLongPress(ev)], lines 106-117.  [ctx] is the context
    value of the render the handler belongs to. *)
Definition onLongPress (disabled : bool) (onLongPressProp_given : bool)
    (ctx : Root.Session) (ev : GestureResponderEvent) : list Call :=
  if disabled then []
  else
    [ setPressPosition
        (Some {| LayoutPosition.width := 0
               ; LayoutPosition.pageX := nativeEvent_pageX ev
               ; LayoutPosition.pageY := nativeEvent_pageY ev
               ; LayoutPosition.height := 0 |}) ]
    ++ (let newValue := negb (Root.open ctx) in
        [ onOpenChange newValue ])
    ++ optional onLongPressProp_given (onLongPressProp ev).

(** [function onAccessibilityAction(event)], lines 119-132. *)
Definition onAccessibilityAction (disabled : bool)
    (onAccessibilityActionProp_given : bool)
    (ctx : Root.Session) (event : AccessibilityActionEvent) : list Call :=
  if disabled then []
  else
    (if String.eqb (nativeEvent_actionName event) "longpress" then
       [ setPressPosition
           (Some {| LayoutPosition.width := 0
                  ; LayoutPosition.pageX := 0
                  ; LayoutPosition.pageY := 0
                  ; LayoutPosition.height := 0 |}) ]
       ++ (let newValue := negb (Root.open ctx) in
           [ onOpenChange newValue ])
     else [])
    ++ optional onAccessibilityActionProp_given
         (onAccessibilityActionProp event).

End Trigger.

(* ================================================================= *)
(** ** Rendered output *)

(** What a render function returns, reduced to what the claims look at:
    the kind of element, its role and its identifiers.  A render function
    that returns [null] is [None]. *)
Inductive Element : Type :=
| RNPPortal (hostName : option string) (name : string)
| Host (role : option string) (nativeID : option string)
        (ariaLabelledby : option string) (ariaChecked : option bool).

(* ================================================================= *)
(** ** Portal, Overlay, Content *)

Module Portal.

(** [function Portal], lines 156-185.  [value] is the context value;
    [id] is the result of [React.useId]. *)
Definition render (forceMount : bool) (hostName : option string)
    (id : string) (value : Root.Session) : option Element :=
  if negb (match Root.pressPosition value with
           | Some _ => true
           | None => false
           end)
  then None
  else if negb forceMount && negb (Root.open value)
  then None
  else Some (RNPPortal hostName
               (id ++ "-" ++ Root.nativeID value ++ "_portal")).

End Portal.

Module Overlay.

(** [function onPress(ev)], lines 208-213. *)
Definition onPress (closeOnPress : bool) (OnPressProp_given : bool)
    (ev : GestureResponderEvent) : list Call :=
  (if closeOnPress then Root.close else [])
  ++ optional OnPressProp_given (onPressProp ev).

(** Render gate, lines 215-229. *)
Definition render (forceMount : bool) (ctx : Root.Session)
  : option Element :=
  if negb forceMount && negb (Root.open ctx)
  then None
  else Some (Host None None None None).

End Overlay.

Module Content.

(** The listener registered on ['hardwareBackPress'], lines 281-284:
    the calls it makes and the value it returns. *)
Definition hardwareBackPress : list Call * bool :=
  (Root.close, true).

(** The clean-up of the effect, lines 287-290, run when [Content]
    unmounts. *)
Definition cleanup : list Call :=
  [ setContentLayout None; backHandler_remove ].

(** [function onLayout(event)], lines 304-307. *)
Definition onLayout (onLayoutProp_given : bool)
    (event : LayoutChangeEvent) : list Call :=
  [ setContentLayout (Some (nativeEvent_layout event)) ]
  ++ optional onLayoutProp_given (onLayoutProp event).

(** Render gate, lines 309-326, which follows the effect and the call of
    [useRelativePosition].  The element is the one [onLayout] is attached
    to; its position style is left out of [Element]. *)
Definition render (forceMount : bool) (ctx : Root.Session)
  : option Element :=
  if negb forceMount && negb (Root.open ctx)
  then None
  else Some (Host (Some "menu") (Some (Root.nativeID ctx)) None None).

End Content.

(* ================================================================= *)
(** ** Items *)

Module Item.

(** [function onPress(ev)], lines 353-359. *)
Definition onPress (closeOnPress : bool)
    (onSelect_given onPressProp_given : bool)
    (ev : GestureResponderEvent) : list Call :=
  (if closeOnPress then Root.close else [])
  ++ optional onSelect_given (onSelect ev)
  ++ optional onPressProp_given (onPressProp ev).

(** The render function, lines 340-374: the hook, then the element.
    [provider] is the value of the enclosing [ContextMenuContext]
    provider, if there is one. *)
Definition render (provider : option Js.value)
  : React.result (option Element) :=
  ctx <- useContextMenuContext provider ;;
  let close := Js.get "close" ctx in
  React.Return (Some (Host (Some "menuitem") None None None)).

End Item.

Module CheckboxItem.

(** [function onPress(ev)], lines 432-439. *)
Definition onPress (checked : bool) (closeOnPress : bool)
    (onSelect_given onPressProp_given : bool)
    (ev : GestureResponderEvent) : list Call :=
  [ onCheckedChange (negb checked) ]
  ++ (if closeOnPress then Root.close else [])
  ++ optional onSelect_given (onSelect ev)
  ++ optional onPressProp_given (onPressProp ev).

(** Line 443: the value of its [FormItemContext.Provider]. *)
Definition formItemContextValue (checked : bool) : Js.value :=
  Js.Object [ ("checked", Js.Boolean checked) ].

End CheckboxItem.

Module RadioGroup.

(** Line 481: the value of its [FormItemContext.Provider]; [value] is
    [string | undefined]. *)
Definition formItemContextValue (value : option string) : Js.value :=
  Js.Object [ ("value", match value with
                        | Some v => Js.Str v
                        | None => Js.Undefined
                        end)
            ; ("onValueChange", Js.Function_ "onValueChange") ].

End RadioGroup.

Module RadioItem.

(** [function onPress(ev)], lines 520-527. *)
Definition onPress (itemValue : string) (closeOnPress : bool)
    (onSelect_given onPressProp_given : bool)
    (ev : GestureResponderEvent) : list Call :=
  [ onValueChange itemValue ]
  ++ (if closeOnPress then Root.close else [])
  ++ optional onSelect_given (onSelect ev)
  ++ optional onPressProp_given (onPressProp ev).

(** Line 531: the value of its [RadioItemContext.Provider]. *)
Definition radioItemContextValue (itemValue : string) : Js.value :=
  Js.Object [ ("itemValue", Js.Str itemValue) ].

(** The render function, lines 504-547: the two hooks, then the
    element with [aria-checked={value === itemValue}].  The element is
    the one rendered when the consumer passes no prop of its own for the
    attributes of [Element]: the spread of the remaining props, which
    comes last and can override them, is not modelled. *)
Definition render (itemValue : string)
    (rootProvider formProvider : option Js.value)
  : React.result (option Element) :=
  ctx <- useContextMenuContext rootProvider ;;
  form <- useFormItemContext formProvider ;;
  let value := Js.get "value" form in
  React.Return
    (Some (Host (Some "radio") None None
             (Some (Js.strict_eq value (Js.Str itemValue))))).

End RadioItem.

Module ItemIndicator.

(** The render function, lines 565-579.  [forceMount] has no default:
    it is [undefined] when the prop is not passed. *)
Definition render (forceMount : option bool)
    (radioItemProvider formProvider : option Js.value)
  : React.result (option Element) :=
  let itemValue :=
    Js.get "itemValue" (useItemIndicatorContext radioItemProvider) in
  form <- useFormItemContext formProvider ;;
  let checked := Js.get "checked" form in
  let value := Js.get "value" form in
  let element := Host (Some "presentation") None None None in
  if negb (Js.truthy (Js.of_optional_bool forceMount)) then
    if Js.loose_eq_null itemValue && negb (Js.truthy checked) then
      React.Return None
    else if negb (Js.strict_eq value itemValue) then
      React.Return None
    else React.Return (Some element)
  else React.Return (Some element).

End ItemIndicator.

(* ================================================================= *)
(** ** Submenus *)

Module Sub.

(** The value [Sub] passes to [SubContext.Provider], without
    [onOpenChange]. *)
Record Session : Type := mkSession
  { open : bool
  ; nativeID : string }.

(** As for [Root.apply]: the owner of [Sub] stores what [onOpenChange]
    hands it.  A submenu has no state cell of its own. *)
Definition apply (s : Session) (c : Call) : Session :=
  match c with
  | onOpenChange v => {| open := v; nativeID := nativeID s |}
  | _ => s
  end.

Definition commit (s : Session) (calls : list Call) : Session :=
  fold_left apply calls s.

End Sub.

Module SubTrigger.

(** [function onPress(ev)], lines 655-658. *)
Definition onPress (onPressProp_given : bool) (ctx : Sub.Session)
    (ev : GestureResponderEvent) : list Call :=
  [ onOpenChange (negb (Sub.open ctx)) ]
  ++ optional onPressProp_given (onPressProp ev).

(** One press, followed by the render that shows its result. *)
Definition press (onPressProp_given : bool) (ev : GestureResponderEvent)
    (s : Sub.Session) : Sub.Session :=
  Sub.commit s (onPress onPressProp_given s ev).

End SubTrigger.

Module SubContent.

(** Render gate, lines 685-697. *)
Definition render (forceMount : bool) (ctx : Sub.Session)
  : option Element :=
  if negb forceMount && negb (Sub.open ctx)
  then None
  else Some (Host (Some "group") None (Some (Sub.nativeID ctx)) None).

End SubContent.

(* ================================================================= *)
(** ** The session under a sequence of events *)

Module Menu.

(** What the host can deliver to the components of one [Root]. *)
Inductive Event : Type :=
| TriggerLongPress (disabled : bool) (ev : GestureResponderEvent)
| TriggerAccessibilityAction (disabled : bool)
    (event : AccessibilityActionEvent)
| OverlayPress (closeOnPress : bool) (ev : GestureResponderEvent)
| ItemPress (closeOnPress : bool) (ev : GestureResponderEvent)
| CheckboxItemPress (checked closeOnPress : bool)
    (ev : GestureResponderEvent)
| RadioItemPress (itemValue : string) (closeOnPress : bool)
    (ev : GestureResponderEvent)
| HardwareBackPress
| ContentLayout (event : LayoutChangeEvent)
| ContentUnmount.

(** The handler the event reaches, run against the current render.
    Every optional callback prop is taken as passed; [Root.apply]
    ignores those calls. *)
Definition handler (s : Root.Session) (e : Event) : list Call :=
  match e with
  | TriggerLongPress disabled ev =>
      Trigger.onLongPress disabled true s ev
  | TriggerAccessibilityAction disabled event =>
      Trigger.onAccessibilityAction disabled true s event
  | OverlayPress closeOnPress ev =>
      Overlay.onPress closeOnPress true ev
  | ItemPress closeOnPress ev =>
      Item.onPress closeOnPress true true ev
  | CheckboxItemPress checked closeOnPress ev =>
      CheckboxItem.onPress checked closeOnPress true true ev
  | RadioItemPress itemValue closeOnPress ev =>
      RadioItem.onPress itemValue closeOnPress true true ev
  | HardwareBackPress => fst Content.hardwareBackPress
  | ContentLayout event => Content.onLayout true event
  | ContentUnmount => Content.cleanup
  end.

(** One event, followed by the render that shows its result. *)
Definition step (s : Root.Session) (e : Event) : Root.Session :=
  Root.commit s (handler s e).

Definition run (s : Root.Session) (es : list Event) : Root.Session :=
  fold_left step es s.

(** The property of section 8 of the specification. *)
Definition closed_is_cleared (s : Root.Session) : Prop :=
  Root.open s = false ->
  Root.pressPosition s = None /\ Root.contentLayout s = None.

(** An event that respects the life cycle of the menu: the trigger is
    activated only while the menu is closed, and a layout measurement
    arrives only while it is open. *)
Definition in_sequence (s : Root.Session) (e : Event) : bool :=
  match e with
  | TriggerLongPress disabled _ => disabled || negb (Root.open s)
  | TriggerAccessibilityAction disabled event =>
      disabled
      || negb (String.eqb (nativeEvent_actionName event) "longpress")
      || negb (Root.open s)
  | ContentLayout _ => Root.open s
  | _ => true
  end.

Fixpoint all_in_sequence (s : Root.Session) (es : list Event) : bool :=
  match es with
  | [] => true
  | e :: rest => in_sequence s e && all_in_sequence (step s e) rest
  end.

End Menu.

(* ================================================================= *)
(** ** Positioning engine *)

Module PositioningEngine.

Inductive Side : Type := top | bottom.
Inductive Align : Type := start | center | end_.

Record Anchor : Type :=
  { anchor_x : Q; anchor_y : Q; anchor_width : Q; anchor_height : Q }.

Record ContentSize : Type :=
  { content_width : Q; content_height : Q }.

Record Insets : Type :=
  { insets_top : Q; insets_bottom : Q; insets_left : Q; insets_right : Q }.

Record Viewport : Type :=
  { viewport_width : Q; viewport_height : Q }.

Record Prefs : Type :=
  { side : Side
  ; align : Align
  ; sideOffset : Q
  ; alignOffset : Q
  ; avoidCollisions : bool
  ; insets : Insets }.

(** The style of section 4.2: the side the panel ended on, its [top] and
    [left], and the bound on its width; [Unmeasured] is the style for a
    panel that has no measurement yet. *)
Inductive Style : Type :=
| Unmeasured
| Placed (placedSide : Side) (top_ left_ maxWidth : Q).

Definition Qltb (a b : Q) : bool := negb (Qle_bool b a).

(** Modelled from the spec: the hook [useRelativePosition] of
    [./hooks/useRelativePosition], which [Content] calls at lines
    293-302, is not among the sources.  This is the algorithm of section
    4.2, step by step: primary-axis candidate for each side, cross-axis
    candidate for the alignment, the verbatim result without collision
    avoidance, and with it the horizontal clamp (pinned to the left inset
    when the span is smaller than the content) and the vertical flip
    (taken when the requested side overflows and the other side does
    not; otherwise the requested side, clamped to the inset boundary). *)
Definition computePlacement (anchor : Anchor)
    (contentLayout : option ContentSize) (prefs : Prefs)
    (viewport : Viewport) : Style :=
  match contentLayout with
  | None => Unmeasured
  | Some content =>
      let i := insets prefs in
      let bottomTop :=
        anchor_y anchor + anchor_height anchor + sideOffset prefs in
      let topTop :=
        anchor_y anchor - content_height content - sideOffset prefs in
      let candidateLeft :=
        match align prefs with
        | start => anchor_x anchor + alignOffset prefs
        | center =>
            anchor_x anchor + anchor_width anchor / 2
            - content_width content / 2 + alignOffset prefs
        | end_ =>
            anchor_x anchor + anchor_width anchor
            - content_width content + alignOffset prefs
        end in
      let maxWidth :=
        viewport_width viewport - insets_left i - insets_right i in
      if negb (avoidCollisions prefs) then
        match side prefs with
        | bottom => Placed bottom bottomTop candidateLeft maxWidth
        | top => Placed top topTop candidateLeft maxWidth
        end
      else
        let lo := insets_left i in
        let hi :=
          viewport_width viewport - insets_right i
          - content_width content in
        let left :=
          if Qltb hi lo then lo
          else if Qltb candidateLeft lo then lo
          else if Qltb hi candidateLeft then hi
          else candidateLeft in
        let lowest :=
          viewport_height viewport - insets_bottom i in
        let overflowsBottom :=
          Qltb lowest (bottomTop + content_height content) in
        let overflowsTop := Qltb topTop (insets_top i) in
        match side prefs with
        | bottom =>
            if negb overflowsBottom then
              Placed bottom bottomTop left maxWidth
            else if negb overflowsTop then
              Placed top topTop left maxWidth
            else
              Placed bottom (lowest - content_height content) left
                maxWidth
        | top =>
            if negb overflowsTop then
              Placed top topTop left maxWidth
            else if negb overflowsBottom then
              Placed bottom bottomTop left maxWidth
            else
              Placed top (insets_top i) left maxWidth
        end
  end.

(** Bottom edge of the panel when it is placed below the anchor. *)
Definition bottomEdge (anchor : Anchor) (content : ContentSize)
    (prefs : Prefs) : Q :=
  anchor_y anchor + anchor_height anchor + sideOffset prefs
  + content_height content.

End PositioningEngine.

(* ================================================================= *)
(** * Properties *)

(** ** Sample inputs *)

Definition press_a : GestureResponderEvent :=
  {| nativeEvent_pageX := 120; nativeEvent_pageY := 300 |}.

Definition press_b : GestureResponderEvent :=
  {| nativeEvent_pageX := 40; nativeEvent_pageY := 80 |}.

Definition measured : LayoutChangeEvent :=
  {| nativeEvent_layout :=
       {| LayoutRectangle.x := 0; LayoutRectangle.y := 0
        ; LayoutRectangle.width := 200; LayoutRectangle.height := 150 |} |}.

Definition longpress_action : AccessibilityActionEvent :=
  {| nativeEvent_actionName := "longpress" |}.

(** The session after it was opened by a long-press and closed from the
    overlay. *)
Definition opened_then_closed : Root.Session :=
  Menu.run (Root.mount false "menu")
    [ Menu.TriggerLongPress false press_a
    ; Menu.OverlayPress true press_a ].

(** The scenario of section 8 of the specification. *)
Definition scenario_anchor : PositioningEngine.Anchor :=
  {| PositioningEngine.anchor_x := 100
   ; PositioningEngine.anchor_y := 500
   ; PositioningEngine.anchor_width := 0
   ; PositioningEngine.anchor_height := 0 |}.

Definition scenario_content : PositioningEngine.ContentSize :=
  {| PositioningEngine.content_width := 200
   ; PositioningEngine.content_height := 150 |}.

Definition scenario_viewport : PositioningEngine.Viewport :=
  {| PositioningEngine.viewport_width := 400
   ; PositioningEngine.viewport_height := 600 |}.

Definition scenario_prefs : PositioningEngine.Prefs :=
  {| PositioningEngine.side := PositioningEngine.bottom
   ; PositioningEngine.align := PositioningEngine.start
   ; PositioningEngine.sideOffset := 4
   ; PositioningEngine.alignOffset := 0
   ; PositioningEngine.avoidCollisions := true
   ; PositioningEngine.insets :=
       {| PositioningEngine.insets_top := 0
        ; PositioningEngine.insets_bottom := 0
        ; PositioningEngine.insets_left := 0
        ; PositioningEngine.insets_right := 0 |} |}.

(** ** What a callback observes *)

(** The calls a handler has made before its first call satisfying [p];
    [None] when it makes no such call. *)
Fixpoint calls_before (p : Call -> bool) (trace : list Call)
  : option (list Call) :=
  match trace with
  | [] => None
  | c :: rest =>
      if p c then Some []
      else match calls_before p rest with
           | Some before => Some (c :: before)
           | None => None
           end
  end.

(** What a callback observes when the handler of a render with context
    value [s] calls it: the session of that render, because the setters
    and [onOpenChange] only queue requests, which are applied after the
    handler has returned; and the requests queued so far. *)
Definition observed_by (p : Call -> bool) (s : Root.Session)
    (trace : list Call) : option (Root.Session * list Call) :=
  match calls_before p trace with
  | Some pending => Some (s, pending)
  | None => None
  end.

(** ** Further predicates on events and calls *)

(** The other half of the session invariant: an open menu has a press
    position. *)
Definition open_has_anchor (s : Root.Session) : Prop :=
  Root.open s = true -> Root.pressPosition s <> None.

(** An event that reaches the body of a trigger handler: the trigger is
    enabled and, for an accessibility action, the action is longpress. *)
Definition activates (e : Menu.Event) : bool :=
  match e with
  | Menu.TriggerLongPress disabled _ => negb disabled
  | Menu.TriggerAccessibilityAction disabled event =>
      negb disabled
      && String.eqb (nativeEvent_actionName event) "longpress"
  | _ => false
  end.



Definition is_onPressProp (c : Call) : bool :=
  match c with onPressProp _ => true | _ => false end.

Definition is_onCheckedChange (c : Call) : bool :=
  match c with onCheckedChange _ => true | _ => false end.

Definition is_onValueChange (c : Call) : bool :=
  match c with onValueChange _ => true | _ => false end.

(** The element [ItemIndicator] renders. *)
Definition indicator : Element :=
  Host (Some "presentation") None None None.

(** An accessibility action of another name. *)
Definition activate_action : AccessibilityActionEvent :=
  {| nativeEvent_actionName := "activate" |}.

(** ** Helper lemmas *)

Lemma commit_app (s : Root.Session) (xs ys : list Call) :
  Root.commit s (xs ++ ys) = Root.commit (Root.commit s xs) ys.
Proof. unfold Root.commit. apply fold_left_app. Qed.

Lemma commit_optional_callback (s : Root.Session) (given : bool) (c : Call) :
  is_close_call c = false ->
  Root.commit s (optional given c) = s.
Proof.
  intros Hc. destruct given; simpl; [| reflexivity].
  destruct c; simpl in Hc; try discriminate; reflexivity.
Qed.

Lemma step_keeps_closed_is_cleared (s : Root.Session) (e : Menu.Event) :
  Menu.in_sequence s e = true ->
  Menu.closed_is_cleared s ->
  Menu.closed_is_cleared (Menu.step s e).
Proof.
  unfold Menu.closed_is_cleared.
  destruct s as [o p c n].
  destruct e as [d ev | d ev | cp ev | cp ev | ck cp ev | iv cp ev | | ev | ];
    cbn [Menu.in_sequence Root.open]; intros Hseq Hinv.
  - destruct d; [exact Hinv |].
    simpl in Hseq. destruct o; [discriminate |].
    simpl. discriminate.
  - destruct d; [exact Hinv |].
    unfold Menu.step, Menu.handler, Trigger.onAccessibilityAction.
    destruct (String.eqb (nativeEvent_actionName ev) "longpress");
      simpl in *; [| exact Hinv].
    destruct o; [discriminate |]. discriminate.
  - destruct cp; simpl; auto.
  - destruct cp; simpl; auto.
  - destruct cp; simpl; auto.
  - destruct cp; simpl; auto.
  - simpl; auto.
  - subst o. simpl. discriminate.
  - simpl. simpl in Hinv. intros Ho. destruct (Hinv Ho). auto.
Qed.

Lemma all_in_sequence_app (s : Root.Session) (es1 es2 : list Menu.Event) :
  Menu.all_in_sequence s (es1 ++ es2) = true ->
  Menu.all_in_sequence s es1 = true.
Proof.
  revert s. induction es1 as [| e es1 IH]; intros s H; [reflexivity |].
  simpl in *. apply andb_true_iff in H. destruct H as [He Hrest].
  rewrite He. simpl. apply IH. exact Hrest.
Qed.

Lemma run_keeps_closed_is_cleared (es : list Menu.Event) :
  forall s : Root.Session,
    Menu.all_in_sequence s es = true ->
    Menu.closed_is_cleared s ->
    Menu.closed_is_cleared (Menu.run s es).
Proof.
  induction es as [| e es IH]; intros s Hseq Hinv; [exact Hinv |].
  simpl in Hseq. apply andb_true_iff in Hseq. destruct Hseq as [He Hrest].
  simpl. apply IH; [exact Hrest |].
  apply step_keeps_closed_is_cleared; assumption.
Qed.

(* ================================================================= *)
(** ** C1: a closed session has no anchor and no content layout *)

(** C1, as stated, fails: a second long-press on the trigger while the menu
    is open toggles [open] back to false and stores a new press position,
    so the session is closed with a non-null anchor. *)
Lemma C1_second_longpress_closes_with_anchor :
  ~ Menu.closed_is_cleared
      (Menu.run (Root.mount false "menu")
         [ Menu.TriggerLongPress false press_a
         ; Menu.TriggerLongPress false press_b ]).
Proof.
  unfold Menu.closed_is_cleared. intros H.
  destruct (H eq_refl) as [Hp _]. discriminate Hp.
Qed.

(** C1, amended: starting from the mount of [Root], along every sequence of
    events in which the trigger is activated only while the menu is closed
    and layout measurements arrive only while it is open, every state
    reached on the way satisfies: [open = false] implies
    [pressPosition = null] and [contentLayout = null]. *)
Theorem closed_is_cleared_in_sequence
    (openProp : bool) (id : string) (es1 es2 : list Menu.Event) :
  Menu.all_in_sequence (Root.mount openProp id) (es1 ++ es2) = true ->
  Menu.closed_is_cleared (Menu.run (Root.mount openProp id) es1).
Proof.
  intros Hseq. apply run_keeps_closed_is_cleared.
  - exact (all_in_sequence_app _ _ _ Hseq).
  - intros _. split; reflexivity.
Qed.

(** Witness for C1: open by long-press, measure, select an item, open by the
    accessibility action, go back, unmount; the state reached is closed. *)
Lemma closed_is_cleared_in_sequence_witness :
  Menu.all_in_sequence (Root.mount false "menu")
    ([ Menu.TriggerLongPress false press_a
     ; Menu.ContentLayout measured
     ; Menu.ItemPress true press_a
     ; Menu.TriggerAccessibilityAction false longpress_action
     ; Menu.HardwareBackPress
     ; Menu.ContentUnmount ]
     ++ [ Menu.TriggerLongPress false press_b ]) = true
  /\ Menu.closed_is_cleared
       (Menu.run (Root.mount false "menu")
          [ Menu.TriggerLongPress false press_a
          ; Menu.ContentLayout measured
          ; Menu.ItemPress true press_a
          ; Menu.TriggerAccessibilityAction false longpress_action
          ; Menu.HardwareBackPress
          ; Menu.ContentUnmount ]).
Proof.
  split.
  - reflexivity.
  - apply (closed_is_cleared_in_sequence false "menu"
             [ Menu.TriggerLongPress false press_a
             ; Menu.ContentLayout measured
             ; Menu.ItemPress true press_a
             ; Menu.TriggerAccessibilityAction false longpress_action
             ; Menu.HardwareBackPress
             ; Menu.ContentUnmount ]
             [ Menu.TriggerLongPress false press_b ]).
    reflexivity.
Defined.

(* ================================================================= *)
(** ** C2: a layout measurement delivered to a closed session *)

(** C2, as stated, fails: after activate and close the session is fully
    closed, and a layout measurement delivered then is stored. *)
Lemma C2_layout_after_close_is_stored :
  opened_then_closed = Root.mount false "menu"
  /\ Root.contentLayout
       (Menu.step opened_then_closed (Menu.ContentLayout measured))
     <> None.
Proof. split; [reflexivity | discriminate]. Qed.

(** C2, amended: [onLayout] has no gate on [open].  Whatever the state of
    the session, it stores the measured rectangle in [contentLayout] and
    changes no other field.  The gate is in the render function: a
    [Content] without [forceMount] renders nothing, hence attaches no
    [onLayout], exactly when the session is closed. *)
Theorem onLayout_stores_layout_in_any_state
    (s : Root.Session) (given : bool) (event : LayoutChangeEvent) :
  Root.commit s (Content.onLayout given event)
  = {| Root.open := Root.open s
     ; Root.pressPosition := Root.pressPosition s
     ; Root.contentLayout := Some (nativeEvent_layout event)
     ; Root.nativeID := Root.nativeID s |}
  /\ (Content.render false s = None <-> Root.open s = false).
Proof.
  split.
  - unfold Content.onLayout. rewrite commit_app.
    rewrite commit_optional_callback by reflexivity. reflexivity.
  - unfold Content.render. destruct (Root.open s); simpl; split;
      intros H; try reflexivity; discriminate H.
Qed.

(* ================================================================= *)
(** ** C3: hooks of a component without its provider *)

(** C3, evaluated on the code: without an enclosing provider [useContext]
    returns the default of the context, the empty object, which is
    truthy; the guards [if (!context)] do not fire.  The hooks return the
    empty object, and an [Item] outside [Root] and a [RadioItem] outside a
    [RadioGroup] render their element. *)
Theorem hooks_return_empty_object_without_provider :
  useContextMenuContext None = React.Return (Js.Object [])
  /\ useFormItemContext None = React.Return (Js.Object [])
  /\ useSubContext None = React.Return (Js.Object [])
  /\ Item.render None
     = React.Return (Some (Host (Some "menuitem") None None None))
  /\ RadioItem.render "a"
       (Some (Root.contextValue (Root.mount true "menu"))) None
     = React.Return (Some (Host (Some "radio") None None (Some false))).
Proof. repeat split. Qed.

(* ================================================================= *)
(** ** C4: order of [close] and [onSelect] in an item press *)

(** C4, as stated, fails: pressing an [Item] with [closeOnPress] and an
    [onSelect] callback, [onSelect] is not called before the calls of
    [close()]; it is called after them. *)
Lemma C4_onSelect_is_called_after_close :
  precedes is_onSelect is_close_call
    (Item.onPress true true true press_a) = false
  /\ precedes is_close_call is_onSelect
       (Item.onPress true true true press_a) = true.
Proof. split; reflexivity. Qed.

(** C4, amended: for every press of an [Item], [CheckboxItem] or
    [RadioItem] with [closeOnPress] enabled and an [onSelect] callback,
    [close()] is invoked before [onSelect], not after it: the handler
    makes the three calls of [close()] (after [onCheckedChange] or
    [onValueChange] for a checkbox or radio item), then [onSelect], then
    the [onPress] prop when it is passed.  The calls of [close()] are
    requests applied after the handler has returned: when [onSelect] runs
    it still observes the session of the current render, unchanged (open
    with its anchor when the menu was open with its anchor at the press),
    with the requests of [close()] pending.  Once the calls of the handler
    are applied the session is closed and cleared. *)
Theorem close_precedes_onSelect
    (ev : GestureResponderEvent) (given checked : bool)
    (itemValue : string) (s : Root.Session) :
  Item.onPress true true given ev
  = (Root.close ++ onSelect ev :: optional given (onPressProp ev))%list
  /\ CheckboxItem.onPress checked true true given ev
     = (onCheckedChange (negb checked)
        :: Root.close ++ onSelect ev :: optional given (onPressProp ev))%list
  /\ RadioItem.onPress itemValue true true given ev
     = (onValueChange itemValue
        :: Root.close ++ onSelect ev :: optional given (onPressProp ev))%list
  /\ precedes is_close_call is_onSelect
       (Item.onPress true true given ev) = true
  /\ precedes is_close_call is_onSelect
       (CheckboxItem.onPress checked true true given ev) = true
  /\ precedes is_close_call is_onSelect
       (RadioItem.onPress itemValue true true given ev) = true
  /\ observed_by is_onSelect s (Item.onPress true true given ev)
     = Some (s, Root.close)
  /\ observed_by is_onSelect s
       (CheckboxItem.onPress checked true true given ev)
     = Some (s, onCheckedChange (negb checked) :: Root.close)
  /\ observed_by is_onSelect s
       (RadioItem.onPress itemValue true true given ev)
     = Some (s, onValueChange itemValue :: Root.close)
  /\ Root.commit s (Item.onPress true true given ev)
     = Root.mount false (Root.nativeID s)
  /\ Root.commit s (CheckboxItem.onPress checked true true given ev)
     = Root.mount false (Root.nativeID s)
  /\ Root.commit s (RadioItem.onPress itemValue true true given ev)
     = Root.mount false (Root.nativeID s).
Proof.
  destruct given; repeat apply conj; reflexivity.
Qed.

(* ================================================================= *)
(** ** C5: long-press on the trigger *)

(** C5, as stated, fails: a long-press on the trigger of a menu that is
    already open leaves it closed. *)
Lemma C5_longpress_on_open_menu_closes_it :
  Root.open (Menu.step (Root.mount false "menu")
               (Menu.TriggerLongPress false press_a)) = true
  /\ Root.open
       (Menu.step
          (Menu.step (Root.mount false "menu")
             (Menu.TriggerLongPress false press_a))
          (Menu.TriggerLongPress false press_b)) = false.
Proof. split; reflexivity. Qed.

(** C5, amended: after a long-press at [(pageX, pageY)] on a trigger that is
    not disabled, the press position is
    [{width: 0, pageX, pageY, height: 0}] and [open] is the negation of
    what it was: true when the menu was closed, false when it was open.
    [contentLayout] is unchanged. *)
Theorem longpress_sets_anchor_and_toggles_open
    (given : bool) (s : Root.Session) (ev : GestureResponderEvent) :
  Root.pressPosition (Root.commit s (Trigger.onLongPress false given s ev))
  = Some {| LayoutPosition.width := 0
          ; LayoutPosition.pageX := nativeEvent_pageX ev
          ; LayoutPosition.pageY := nativeEvent_pageY ev
          ; LayoutPosition.height := 0 |}
  /\ Root.open (Root.commit s (Trigger.onLongPress false given s ev))
     = negb (Root.open s)
  /\ Root.contentLayout
       (Root.commit s (Trigger.onLongPress false given s ev))
     = Root.contentLayout s.
Proof.
  destruct given; repeat split.
Qed.

(* ================================================================= *)
(** ** C6: force-mount *)

(** C6, as stated, fails for [Portal]: with [forceMount] true and no press
    position recorded yet, it renders nothing. *)
Lemma C6_forced_portal_without_anchor_renders_nothing :
  Portal.render true None "portal" (Root.mount false "menu") = None.
Proof. reflexivity. Qed.

(** C6, amended: [Content], [Overlay], [SubContent] and [ItemIndicator]
    with [forceMount] true render their element whatever the session (or
    selection) state is, and without [forceMount] the first three render
    nothing exactly when [open] is false.  [Portal] first tests the press
    position: it renders nothing whenever [pressPosition] is null, also
    under [forceMount]; with a press position, [forceMount] true mounts it
    whatever [open] is, and [forceMount] false mounts it exactly when
    [open] is true. *)
Theorem forceMount_bypasses_the_open_gate :
  (forall hostName id value,
      Portal.render true hostName id value = None
      <-> Root.pressPosition value = None)
  /\ (forall hostName id value,
         Portal.render false hostName id value = None
         <-> (Root.pressPosition value = None \/ Root.open value = false))
  /\ (forall ctx, Content.render true ctx <> None)
  /\ (forall ctx, Overlay.render true ctx <> None)
  /\ (forall ctx, SubContent.render true ctx <> None)
  /\ (forall radioItemProvider checked,
         ItemIndicator.render (Some true) radioItemProvider
           (Some (CheckboxItem.formItemContextValue checked))
         = React.Return (Some (Host (Some "presentation") None None None)))
  /\ (forall radioItemProvider value,
         ItemIndicator.render (Some true) radioItemProvider
           (Some (RadioGroup.formItemContextValue value))
         = React.Return (Some (Host (Some "presentation") None None None)))
  /\ (forall ctx, Content.render false ctx = None <-> Root.open ctx = false)
  /\ (forall ctx, Overlay.render false ctx = None <-> Root.open ctx = false)
  /\ (forall ctx, SubContent.render false ctx = None
                  <-> Sub.open ctx = false).
Proof.
  repeat apply conj.
  - intros hostName id [o [p |] c n]; simpl; split; intros H;
      try reflexivity; discriminate H.
  - intros hostName id [[|] [p |] c n]; simpl; split; intros H;
      try reflexivity; try discriminate H; auto;
      destruct H as [H | H]; discriminate H.
  - intros [o p c n]. simpl. discriminate.
  - intros [o p c n]. simpl. discriminate.
  - intros [o n]. simpl. discriminate.
  - intros radioItemProvider checked. reflexivity.
  - intros radioItemProvider value. reflexivity.
  - intros [[|] p c n]; simpl; split; intros H;
      try reflexivity; discriminate H.
  - intros [[|] p c n]; simpl; split; intros H;
      try reflexivity; discriminate H.
  - intros [[|] n]; simpl; split; intros H;
      try reflexivity; discriminate H.
Qed.

(* ================================================================= *)
(** ** C7: the flip scenario of the specification *)

(** C7: for anchor [{x:100, y:500, width:0, height:0}], content
    [{width:200, height:150}], viewport [{width:400, height:600}],
    side bottom, align start, sideOffset 4, alignOffset 0, collision
    avoidance on and all insets 0, the bottom edge of the bottom placement
    is 654, which exceeds the viewport height 600, and the engine returns
    the placement on side top with [top = 346] and [left = 100]. *)
Theorem computePlacement_flips_to_top_in_scenario :
  PositioningEngine.bottomEdge scenario_anchor scenario_content
    scenario_prefs = 654
  /\ PositioningEngine.Qltb
       (PositioningEngine.viewport_height scenario_viewport)
       (PositioningEngine.bottomEdge scenario_anchor scenario_content
          scenario_prefs) = true
  /\ PositioningEngine.computePlacement scenario_anchor
       (Some scenario_content) scenario_prefs scenario_viewport
     = PositioningEngine.Placed PositioningEngine.top 346 100 400.
Proof. repeat split. Qed.

(* ================================================================= *)
(** ** C8: the submenu trigger toggles *)

(** C8: a press on a submenu trigger sets [open] to its negation; two
    presses in a row bring the submenu session back to the state it was
    in, so a closed submenu is closed again. *)
Theorem SubTrigger_press_toggles
    (given : bool) (ev : GestureResponderEvent) (s : Sub.Session)
    (id : string) :
  Sub.open (SubTrigger.press given ev s) = negb (Sub.open s)
  /\ SubTrigger.press given ev (SubTrigger.press given ev s) = s
  /\ SubTrigger.press given ev
       (SubTrigger.press given ev {| Sub.open := false; Sub.nativeID := id |})
     = {| Sub.open := false; Sub.nativeID := id |}.
Proof.
  destruct s as [o n]. destruct given, o; repeat split.
Qed.

(* ================================================================= *)
(** ** C9: the accessibility action *)

(** C9: on a trigger that is not disabled, the accessibility action named
    longpress sets the press position to
    [{width: 0, pageX: 0, pageY: 0, height: 0}] and changes [open] to its
    negation. *)
Theorem longpress_action_sets_origin_and_toggles_open
    (given : bool) (s : Root.Session) (event : AccessibilityActionEvent) :
  nativeEvent_actionName event = "longpress" ->
  Root.pressPosition
    (Root.commit s (Trigger.onAccessibilityAction false given s event))
  = Some {| LayoutPosition.width := 0
          ; LayoutPosition.pageX := 0
          ; LayoutPosition.pageY := 0
          ; LayoutPosition.height := 0 |}
  /\ Root.open
       (Root.commit s (Trigger.onAccessibilityAction false given s event))
     = negb (Root.open s)
  /\ Root.open
       (Root.commit s (Trigger.onAccessibilityAction false given s event))
     <> Root.open s.
Proof.
  intros Hname. destruct event as [name]. simpl in Hname. subst name.
  destruct s as [o p c n]. destruct given, o; simpl;
    repeat split; discriminate.
Qed.

(** Witness for C9: the action on a closed menu. *)
Lemma longpress_action_sets_origin_and_toggles_open_witness :
  nativeEvent_actionName longpress_action = "longpress"
  /\ Root.pressPosition
       (Root.commit (Root.mount false "menu")
          (Trigger.onAccessibilityAction false true
             (Root.mount false "menu") longpress_action))
     = Some {| LayoutPosition.width := 0
             ; LayoutPosition.pageX := 0
             ; LayoutPosition.pageY := 0
             ; LayoutPosition.height := 0 |}
  /\ Root.open
       (Root.commit (Root.mount false "menu")
          (Trigger.onAccessibilityAction false true
             (Root.mount false "menu") longpress_action))
     = true.
Proof.
  split; [reflexivity |].
  destruct (longpress_action_sets_origin_and_toggles_open true
              (Root.mount false "menu") longpress_action eq_refl)
    as [Hp [Ho _]].
  split; [exact Hp | exact Ho].
Defined.

(* ================================================================= *)
(** ** C10: [close] on a closed session *)

(** C10: when [open] is false and both [pressPosition] and [contentLayout]
    are null, applying the calls of [close()] leaves the session as it
    was. *)
Theorem close_is_idempotent (s : Root.Session) :
  Root.open s = false ->
  Root.pressPosition s = None ->
  Root.contentLayout s = None ->
  Root.commit s Root.close = s.
Proof.
  destruct s as [o p c n]. simpl. intros -> -> ->. reflexivity.
Qed.

(** Witness for C10: the session as [Root] mounts it, closed. *)
Lemma close_is_idempotent_witness :
  Root.open (Root.mount false "menu") = false
  /\ Root.pressPosition (Root.mount false "menu") = None
  /\ Root.contentLayout (Root.mount false "menu") = None
  /\ Root.commit (Root.mount false "menu") Root.close
     = Root.mount false "menu".
Proof.
  split; [reflexivity |].
  split; [reflexivity |].
  split; [reflexivity |].
  apply (close_is_idempotent (Root.mount false "menu")); reflexivity.
Defined.

(* ================================================================= *)
(** * Further properties of the handlers and render functions *)

(** ** Shared lemmas *)

Lemma step_keeps_open_has_anchor (s : Root.Session) (e : Menu.Event) :
  open_has_anchor s -> open_has_anchor (Menu.step s e).
Proof.
  unfold open_has_anchor. destruct s as [o p c n].
  destruct e as [d ev | d ev | cp ev | cp ev | ck cp ev | iv cp ev | | ev | ];
    intros Hinv.
  - destruct d; [exact Hinv |]. simpl. intros _. discriminate.
  - destruct d; [exact Hinv |].
    unfold Menu.step, Menu.handler, Trigger.onAccessibilityAction.
    destruct (String.eqb (nativeEvent_actionName ev) "longpress");
      simpl in *; [intros _; discriminate | exact Hinv].
  - destruct cp; simpl in *; [discriminate | exact Hinv].
  - destruct cp; simpl in *; [discriminate | exact Hinv].
  - destruct cp; simpl in *; [discriminate | exact Hinv].
  - destruct cp; simpl in *; [discriminate | exact Hinv].
  - simpl. discriminate.
  - simpl in *. exact Hinv.
  - simpl in *. exact Hinv.
Qed.

Lemma run_keeps_open_has_anchor (es : list Menu.Event) :
  forall s : Root.Session,
    open_has_anchor s -> open_has_anchor (Menu.run s es).
Proof.
  induction es as [| e es IH]; intros s Hinv; [exact Hinv |].
  simpl. apply IH. apply step_keeps_open_has_anchor. exact Hinv.
Qed.

Lemma mount_closed_has_anchor (id : string) :
  open_has_anchor (Root.mount false id).
Proof. unfold open_has_anchor. simpl. discriminate. Qed.

Lemma guarded_context_throws
    (c : React.Context) (msg : string) (provider : option Js.value) :
  Js.truthy (React.defaultValue c) = true ->
  ((exists m,
       (let context := React.useContext c provider in
        if negb (Js.truthy context)
        then React.Throw msg else React.Return context)
       = React.Throw m)
   <-> (exists v, provider = Some v /\ Js.truthy v = false)).
Proof.
  intros Hdefault. destruct provider as [v |]; simpl.
  - destruct (Js.truthy v) eqn:Hv; simpl; split.
    + intros [m Hm]. discriminate Hm.
    + intros [w [Hw Hf]]. inversion Hw. subst w. congruence.
    + intros _. exists v. split; [reflexivity | exact Hv].
    + intros _. exists msg. reflexivity.
  - rewrite Hdefault. simpl. split.
    + intros [m Hm]. discriminate Hm.
    + intros [w [Hw _]]. discriminate Hw.
Qed.

(* ================================================================= *)
(** ** X1: an open menu has a press position *)

(** X1: starting from a [Root] mounted closed, after any sequence of
    events whatever, if the menu is open then a press position is
    recorded.  No condition on the order of events is needed: [open]
    becomes true only in the trigger handlers, which store a press
    position in the same handler, and the press position is reset only by
    [close()], which closes the menu. *)
Theorem open_menu_has_press_position
    (id : string) (es : list Menu.Event) :
  Root.open (Menu.run (Root.mount false id) es) = true ->
  Root.pressPosition (Menu.run (Root.mount false id) es) <> None.
Proof.
  apply (run_keeps_open_has_anchor es). apply mount_closed_has_anchor.
Qed.

(** Witness for X1: three long-presses with a measurement in between; the
    menu ends open. *)
Lemma open_menu_has_press_position_witness :
  Root.open
    (Menu.run (Root.mount false "menu")
       [ Menu.TriggerLongPress false press_a
       ; Menu.ContentLayout measured
       ; Menu.TriggerLongPress false press_b
       ; Menu.TriggerLongPress false press_a ]) = true
  /\ Root.pressPosition
       (Menu.run (Root.mount false "menu")
          [ Menu.TriggerLongPress false press_a
          ; Menu.ContentLayout measured
          ; Menu.TriggerLongPress false press_b
          ; Menu.TriggerLongPress false press_a ]) <> None.
Proof.
  split; [reflexivity |].
  apply (open_menu_has_press_position "menu"
           [ Menu.TriggerLongPress false press_a
           ; Menu.ContentLayout measured
           ; Menu.TriggerLongPress false press_b
           ; Menu.TriggerLongPress false press_a ]).
  reflexivity.
Defined.

(* ================================================================= *)
(** ** X2: the portal follows [open] *)

(** X2: in every state reached from a [Root] mounted closed, a [Portal]
    without [forceMount] renders nothing exactly when the menu is closed:
    its test on the press position never hides an open menu, and it is
    mounted exactly when a [Content] without [forceMount] is. *)
Theorem portal_renders_exactly_when_open
    (id : string) (es : list Menu.Event)
    (hostName : option string) (portalId : string) :
  (Portal.render false hostName portalId
     (Menu.run (Root.mount false id) es) = None
   <-> Root.open (Menu.run (Root.mount false id) es) = false)
  /\ (Portal.render false hostName portalId
        (Menu.run (Root.mount false id) es) = None
      <-> Content.render false (Menu.run (Root.mount false id) es) = None).
Proof.
  pose proof (run_keeps_open_has_anchor es _ (mount_closed_has_anchor id))
    as Hinv.
  unfold open_has_anchor in Hinv.
  destruct (Menu.run (Root.mount false id) es) as [o p c n].
  simpl in Hinv. unfold Portal.render, Content.render. simpl.
  destruct o, p as [p |]; simpl; repeat split; intros H;
    try reflexivity; try discriminate H.
  - exfalso. apply (Hinv eq_refl). reflexivity.
  - exfalso. apply (Hinv eq_refl). reflexivity.
Qed.

(* ================================================================= *)
(** ** X4: every way of closing resets the whole session *)

(** X4: a press on the overlay, on a checkbox item or on a radio item with
    [closeOnPress] enabled, and the hardware back press, each leave the
    session as [Root] mounts it closed (open false, press position and
    content layout null, same identifier), whatever the state before and
    whichever optional callbacks are passed.  The back-press listener
    reports the event as handled in every state. *)
Theorem closing_resets_the_session
    (s : Root.Session) (ev : GestureResponderEvent)
    (pressGiven selectGiven checked : bool) (itemValue : string) :
  Root.commit s (Overlay.onPress true pressGiven ev)
  = Root.mount false (Root.nativeID s)
  /\ Root.commit s
       (CheckboxItem.onPress checked true selectGiven pressGiven ev)
     = Root.mount false (Root.nativeID s)
  /\ Root.commit s
       (RadioItem.onPress itemValue true selectGiven pressGiven ev)
     = Root.mount false (Root.nativeID s)
  /\ Root.commit s (fst Content.hardwareBackPress)
     = Root.mount false (Root.nativeID s)
  /\ snd Content.hardwareBackPress = true.
Proof.
  destruct pressGiven, selectGiven; repeat apply conj; reflexivity.
Qed.

(* ================================================================= *)
(** ** X5: presses with [closeOnPress] disabled *)

(** X5: with [closeOnPress] false, a press on the overlay or on an item of
    any kind leaves the session unchanged; and whatever [closeOnPress] is,
    an item calls [onSelect] and the [onPress] prop exactly when they are
    passed. *)
Theorem press_without_closeOnPress_keeps_the_session
    (s : Root.Session) (ev : GestureResponderEvent)
    (closeOnPress pressGiven selectGiven checked : bool)
    (itemValue : string) :
  Root.commit s (Overlay.onPress false pressGiven ev) = s
  /\ Root.commit s (Item.onPress false selectGiven pressGiven ev) = s
  /\ Root.commit s
       (CheckboxItem.onPress checked false selectGiven pressGiven ev) = s
  /\ Root.commit s
       (RadioItem.onPress itemValue false selectGiven pressGiven ev) = s
  /\ existsb is_onSelect
       (Item.onPress closeOnPress selectGiven pressGiven ev) = selectGiven
  /\ existsb is_onPressProp
       (Item.onPress closeOnPress selectGiven pressGiven ev) = pressGiven.
Proof.
  destruct s as [o p c n].
  destruct closeOnPress, pressGiven, selectGiven;
    repeat apply conj; reflexivity.
Qed.

(* ================================================================= *)
(** ** X6: a disabled trigger *)


(* ================================================================= *)
(** ** X7: accessibility actions of another name *)

(** X7: an accessibility action whose name is not longpress leaves the
    session unchanged, on a disabled and on an enabled trigger. *)
Theorem other_action_keeps_the_session
    (disabled given : bool) (s : Root.Session)
    (event : AccessibilityActionEvent) :
  nativeEvent_actionName event <> "longpress" ->
  Root.commit s (Trigger.onAccessibilityAction disabled given s event) = s.
Proof.
  intros Hname. apply String.eqb_neq in Hname.
  unfold Trigger.onAccessibilityAction. rewrite Hname.
  destruct s as [o p c n]. destruct disabled, given; reflexivity.
Qed.

(** Witness for X7: the action named activate on an open menu. *)
Lemma other_action_keeps_the_session_witness :
  nativeEvent_actionName activate_action <> "longpress"
  /\ Root.commit (Menu.step (Root.mount false "menu")
                    (Menu.TriggerLongPress false press_a))
       (Trigger.onAccessibilityAction false true
          (Menu.step (Root.mount false "menu")
             (Menu.TriggerLongPress false press_a))
          activate_action)
     = Menu.step (Root.mount false "menu")
         (Menu.TriggerLongPress false press_a).
Proof.
  split; [discriminate |].
  apply (other_action_keeps_the_session false true
           (Menu.step (Root.mount false "menu")
              (Menu.TriggerLongPress false press_a))
           activate_action).
  discriminate.
Defined.

(* ================================================================= *)
(** ** X8-X10: when the item indicator shows *)

(** X8: in a [CheckboxItem] (and in no [RadioItem]) the indicator is
    rendered exactly when [forceMount] is true or the item is checked. *)
Theorem indicator_in_checkbox_item
    (forceMount : option bool) (checked : bool) :
  ItemIndicator.render forceMount None
    (Some (CheckboxItem.formItemContextValue checked))
  = React.Return
      (if Js.truthy (Js.of_optional_bool forceMount) || checked
       then Some indicator else None).
Proof.
  destruct forceMount as [[|] |], checked; reflexivity.
Qed.

(** X9: in a [RadioItem] of a [RadioGroup] the indicator is rendered
    exactly when [forceMount] is true or the value of the group is the
    value of the item; a group without a value shows no indicator. *)
Theorem indicator_in_radio_item
    (forceMount : option bool) (itemValue : string)
    (value : option string) :
  ItemIndicator.render forceMount
    (Some (RadioItem.radioItemContextValue itemValue))
    (Some (RadioGroup.formItemContextValue value))
  = React.Return
      (if Js.truthy (Js.of_optional_bool forceMount)
          || match value with
             | Some v => String.eqb v itemValue
             | None => false
             end
       then Some indicator else None).
Proof.
  destruct forceMount as [[|] |], value as [v |]; simpl;
    try reflexivity;
    unfold ItemIndicator.render; simpl;
    destruct (String.eqb v itemValue); reflexivity.
Qed.

(** X10: without [forceMount], an indicator that has no [CheckboxItem] or
    [RadioGroup] above it renders nothing and raises no error, inside a
    [RadioItem] or not; and an indicator of a [CheckboxItem] nested in a
    [RadioItem] renders nothing even when the item is checked. *)
Theorem indicator_without_its_providers
    (itemValue : string) (checked : bool) :
  ItemIndicator.render None None None = React.Return None
  /\ ItemIndicator.render None
       (Some (RadioItem.radioItemContextValue itemValue)) None
     = React.Return None
  /\ ItemIndicator.render None
       (Some (RadioItem.radioItemContextValue itemValue))
       (Some (CheckboxItem.formItemContextValue checked))
     = React.Return None.
Proof.
  repeat apply conj; reflexivity.
Qed.

(* ================================================================= *)
(** ** X12: when the context hooks throw *)

(** X12: [useContextMenuContext], [useFormItemContext] and [useSubContext]
    throw exactly when an enclosing provider passes a falsy value; in
    particular never without a provider, and never under [Root], whose
    provider value is returned as it is. *)
Theorem hooks_throw_exactly_on_falsy_provider
    (provider : option Js.value) (s : Root.Session) :
  ((exists m, useContextMenuContext provider = React.Throw m)
   <-> (exists v, provider = Some v /\ Js.truthy v = false))
  /\ ((exists m, useFormItemContext provider = React.Throw m)
      <-> (exists v, provider = Some v /\ Js.truthy v = false))
  /\ ((exists m, useSubContext provider = React.Throw m)
      <-> (exists v, provider = Some v /\ Js.truthy v = false))
  /\ useContextMenuContext (Some (Root.contextValue s))
     = React.Return (Root.contextValue s).
Proof.
  split; [apply guarded_context_throws; reflexivity |].
  split; [apply guarded_context_throws; reflexivity |].
  split; [apply guarded_context_throws; reflexivity |].
  reflexivity.
Qed.

(* ================================================================= *)
(** ** X13: layout measurements and the unmount of the content *)

(** X13: of two layout measurements in a row only the second counts; the
    unmount of [Content] discards a measurement, clears [contentLayout],
    and leaves [open] and the press position as they were. *)
Theorem layout_last_write_wins
    (s : Root.Session) (first second : LayoutChangeEvent) :
  Menu.step (Menu.step s (Menu.ContentLayout first))
    (Menu.ContentLayout second)
  = Menu.step s (Menu.ContentLayout second)
  /\ Menu.step (Menu.step s (Menu.ContentLayout first)) Menu.ContentUnmount
     = Menu.step s Menu.ContentUnmount
  /\ Menu.step s Menu.ContentUnmount
     = {| Root.open := Root.open s
        ; Root.pressPosition := Root.pressPosition s
        ; Root.contentLayout := None
        ; Root.nativeID := Root.nativeID s |}.
Proof. repeat apply conj; reflexivity. Qed.

(* ================================================================= *)
(** ** X14: only the trigger opens the menu *)

(** X14: if an event takes the session from closed to open, the event is a
    long-press, or an accessibility action named longpress, on an enabled
    trigger.  Presses on the overlay and on items, the back press, layout
    measurements and the unmount of the content never open the menu. *)
Theorem only_the_trigger_opens (s : Root.Session) (e : Menu.Event) :
  Root.open s = false ->
  Root.open (Menu.step s e) = true ->
  activates e = true.
Proof.
  destruct s as [o p c n]. simpl. intros Ho. subst o.
  destruct e as [d ev | d ev | cp ev | cp ev | ck cp ev | iv cp ev | | ev | ];
    try (destruct d); try (destruct cp); simpl;
    try discriminate; try reflexivity.
  unfold Menu.step, Menu.handler, Trigger.onAccessibilityAction.
  destruct (String.eqb (nativeEvent_actionName ev) "longpress");
    simpl; [reflexivity | discriminate].
Qed.

(** Witness for X14: the long-press that opens a freshly mounted menu. *)
Lemma only_the_trigger_opens_witness :
  Root.open (Root.mount false "menu") = false
  /\ Root.open
       (Menu.step (Root.mount false "menu")
          (Menu.TriggerLongPress false press_a)) = true
  /\ activates (Menu.TriggerLongPress false press_a) = true.
Proof.
  split; [reflexivity |].
  split; [reflexivity |].
  apply (only_the_trigger_opens (Root.mount false "menu")
           (Menu.TriggerLongPress false press_a));
    reflexivity.
Defined.

(* ================================================================= *)
(** ** X15: two long-presses in a row *)

(** X15: two long-presses on an enabled trigger bring [open] back to the
    value it had, and the press position is the one of the second
    press. *)
Theorem two_longpresses_restore_open
    (s : Root.Session) (first second : GestureResponderEvent) :
  Root.open
    (Menu.step (Menu.step s (Menu.TriggerLongPress false first))
       (Menu.TriggerLongPress false second))
  = Root.open s
  /\ Root.pressPosition
       (Menu.step (Menu.step s (Menu.TriggerLongPress false first))
          (Menu.TriggerLongPress false second))
     = Some {| LayoutPosition.width := 0
             ; LayoutPosition.pageX := nativeEvent_pageX second
             ; LayoutPosition.pageY := nativeEvent_pageY second
             ; LayoutPosition.height := 0 |}.
Proof.
  destruct s as [o p c n]. split; [| reflexivity].
  simpl. apply negb_involutive.
Qed.

(* ================================================================= *)
(** ** X16: the submenu content after a press on its trigger *)

(** X16: a press on the submenu trigger flips the visibility of a
    [SubContent] without [forceMount]: it renders nothing after the press
    exactly when it rendered an element before; and the press keeps the
    identifier the content is labelled by. *)
Theorem SubTrigger_press_flips_SubContent
    (given : bool) (ev : GestureResponderEvent) (s : Sub.Session) :
  (SubContent.render false (SubTrigger.press given ev s) = None
   <-> SubContent.render false s <> None)
  /\ Sub.nativeID (SubTrigger.press given ev s) = Sub.nativeID s.
Proof.
  destruct s as [o n]. destruct given, o; simpl; split;
    try reflexivity; split; intros H;
    try reflexivity; try discriminate; try discriminate H;
    exfalso; apply H; reflexivity.
Qed.

(* ================================================================= *)
(** ** X18: the value-change callbacks of checkbox and radio items *)

(** X18: a press on a [CheckboxItem] calls [onCheckedChange] with the
    negation of [checked], and a press on a [RadioItem] calls
    [onValueChange] with the value of the item: once, as the first call of
    the handler, whatever [closeOnPress] is and whichever optional
    callbacks are passed. *)
Theorem value_change_is_called_first_and_once
    (checked closeOnPress selectGiven pressGiven : bool)
    (itemValue : string) (ev : GestureResponderEvent) :
  hd_error
    (CheckboxItem.onPress checked closeOnPress selectGiven pressGiven ev)
  = Some (onCheckedChange (negb checked))
  /\ List.length
       (filter is_onCheckedChange
          (CheckboxItem.onPress checked closeOnPress selectGiven
             pressGiven ev)) = 1%nat
  /\ hd_error
       (RadioItem.onPress itemValue closeOnPress selectGiven pressGiven ev)
     = Some (onValueChange itemValue)
  /\ List.length
       (filter is_onValueChange
          (RadioItem.onPress itemValue closeOnPress selectGiven
             pressGiven ev)) = 1%nat.
Proof.
  destruct closeOnPress, selectGiven, pressGiven;
    repeat apply conj; reflexivity.
Qed.
